(** * A shallow embedding of scripts/preprocess_snli.py

    The script is straight-line glue: it checks and creates the target
    directory, picks the train/dev/test files of the input directory by
    filename pattern, drives a [Preprocessor] object of [esim.data] through
    its methods, and pickles the results.  Its effects are recorded as a
    trace of events, threaded through a small writer monad, so that the
    order and the arguments of every call can be stated and checked. *)

From Stdlib Require Import String Ascii List Bool Arith Lia.
Import ListNotations.
Open Scope list_scope.
Open Scope string_scope.

(** ** Strings and paths (posixpath, fnmatch) *)

Definition path := string.

(** [str.startswith] *)
Definition startswith (s pre : string) : bool := String.prefix pre s.

(** [str.endswith] *)
Definition endswith (s suf : string) : bool :=
  let n := String.length s in
  let m := String.length suf in
  Nat.leb m n && String.eqb (String.substring (n - m) m s) suf.

(** [posixpath.join(a, b)] for two components:
    an absolute [b] replaces [a]; otherwise [b] is appended, with a ['/']
    separator unless [a] is empty or already ends with ['/']. *)
Definition join (a b : path) : path :=
  if startswith b "/" then b
  else if String.eqb a "" || endswith a "/" then a ++ b
  else a ++ "/" ++ b.

(** [fnmatch.fnmatch(name, pat)] on POSIX, where [os.path.normcase] is the
    identity: [*] matches any (possibly empty) run of characters, [?] any one
    character, every other character itself.  Bracket classes [[...]] do not
    occur in the script's patterns and are not modelled. *)
Fixpoint fnmatch (s pat : string) : bool :=
  match pat with
  | EmptyString => String.eqb s EmptyString
  | String c pat' =>
      if Ascii.eqb c "*"%char then
        (fix star (s : string) : bool :=
           fnmatch s pat' ||
           match s with
           | EmptyString => false
           | String _ s' => star s'
           end) s
      else if Ascii.eqb c "?"%char then
        match s with
        | EmptyString => false
        | String _ s' => fnmatch s' pat'
        end
      else
        match s with
        | EmptyString => false
        | String c' s' => Ascii.eqb c c' && fnmatch s' pat'
        end
  end.

(** [n * s] for a string [s]. *)
Fixpoint str_repeat (n : nat) (s : string) : string :=
  match n with
  | O => ""
  | S n' => s ++ str_repeat n' s
  end.

(** The text written by [print(a1, ..., an)]: the arguments separated by
    single spaces (the trailing newline is left implicit). *)
Fixpoint print_text (args : list string) : string :=
  match args with
  | [] => ""
  | [a] => a
  | a :: rest => a ++ " " ++ print_text rest
  end.

(** ** The file-selection loop (lines 59-68) *)

Definition train_pat := "*_train.txt".
Definition dev_pat := "*_dev.txt".
Definition test_pat := "*_test.txt".

(** One iteration of [for file in os.listdir(inputdir)] with its
    [if / elif / elif] chain, on the triple [(train_file, dev_file, test_file)]. *)
Definition select_step (acc : string * string * string) (file : string)
  : string * string * string :=
  let '(train_file, dev_file, test_file) := acc in
  if fnmatch file train_pat then (file, dev_file, test_file)
  else if fnmatch file dev_pat then (train_file, file, test_file)
  else if fnmatch file test_pat then (train_file, dev_file, file)
  else (train_file, dev_file, test_file).

(** The loop, starting from three empty strings. *)
Definition select_files (listing : list string) : string * string * string :=
  fold_left select_step listing ("", "", "").

(** ** The Preprocessor collaborator and the script's effects *)

(** Constructor options of [Preprocessor(...)], as passed at lines 71-77. *)
Record PreprocessorOptions := {
  opt_lowercase : bool;
  opt_ignore_punctuation : bool;
  opt_num_words : option nat;
  opt_stopwords : list string;
  opt_labeldict : list (string * nat);
  opt_bos : option string;
  opt_eos : option string
}.

Section Script.

(** Values the collaborator produces: raw data read from a file, transformed
    (indexed) data, a word dictionary and an embedding matrix. *)
Context {Data TData WordDict Emb : Type}.

(** Modelled from the spec: the [Preprocessor] object of [esim.data], which is
    not part of src/.  The spec calls it an external collaborator whose
    contract the script invokes; its state, as far as the script can observe
    it, is its constructor options and the [worddict] attribute, which only
    [build_worddict] assigns ([None] until then). *)
Record Preprocessor := {
  pp_options : PreprocessorOptions;
  pp_worddict : option WordDict
}.

(** Modelled from the spec: the results of the collaborator's methods, as
    arbitrary functions of the object and the argument. *)
Context (read_data : Preprocessor -> path -> Data)
        (build_worddict : Preprocessor -> Data -> WordDict)
        (transform_to_indices : Preprocessor -> Data -> TData)
        (build_embedding_matrix : Preprocessor -> path -> Emb).

(** The file system as the script observes it: [os.path.exists] and
    [os.listdir]. *)
Context (path_exists : path -> bool)
        (listdir : path -> list string).

(** A value handed to [pickle.dump]. *)
Inductive pickled :=
| PWorddict (w : option WordDict)
| PData (t : TData)
| PEmb (e : Emb).

(** Observable steps of a run.  Each collaborator call records its argument
    and its result. *)
Inductive event :=
| EOpenConfig (p : path)
| EPathExists (p : path) (r : bool)
| EMakedirs (p : path)
| EListdir (p : path) (names : list string)
| ENewPreprocessor (o : PreprocessorOptions)
| EPrint (s : string)
| EReadData (p : path) (d : Data)
| EBuildWorddict (d : Data) (w : WordDict)
| ETransform (d : Data) (w : option WordDict) (t : TData)
| EBuildEmbedding (p : path) (e : Emb)
| EDump (p : path) (v : pickled).

(** A writer monad over the event trace. *)
Definition M (A : Type) : Type := list event -> A * list event.

Definition ret {A} (a : A) : M A := fun tr => (a, tr).

Definition bind {A B} (m : M A) (k : A -> M B) : M B :=
  fun tr => let (a, tr') := m tr in k a tr'.

Definition emit (e : event) : M unit := fun tr => (tt, (tr ++ [e])%list).

Local Notation "x <- m ;; k" := (bind m (fun x => k))
  (at level 61, m at next level, right associativity).
Local Notation "m ;;; k" := (bind m (fun _ => k))
  (at level 61, right associativity).

(** The events of running [m] from an empty trace. *)
Definition trace_of {A} (m : M A) : list event := snd (m []).

(** The primitive operations, each recording its event. *)
Definition os_path_exists (p : path) : M bool :=
  let r := path_exists p in emit (EPathExists p r) ;;; ret r.

Definition os_makedirs (p : path) : M unit := emit (EMakedirs p).

Definition os_listdir (p : path) : M (list string) :=
  let l := listdir p in emit (EListdir p l) ;;; ret l.

Definition print (args : list string) : M unit := emit (EPrint (print_text args)).

Definition new_preprocessor (o : PreprocessorOptions) : M Preprocessor :=
  emit (ENewPreprocessor o) ;;; ret {| pp_options := o; pp_worddict := None |}.

Definition call_read_data (pp : Preprocessor) (p : path) : M Data :=
  let d := read_data pp p in emit (EReadData p d) ;;; ret d.

(** [preprocessor.build_worddict(data)].  [Preprocessor] is not in src/:
    following the spec's description of it, the call is modelled as
    assigning [preprocessor.worddict] and nothing else the script observes;
    the options are carried over as the model's assumption, not a fact
    checked against [esim.data]. *)
Definition call_build_worddict (pp : Preprocessor) (d : Data) : M Preprocessor :=
  let w := build_worddict pp d in
  emit (EBuildWorddict d w) ;;;
  ret {| pp_options := pp_options pp; pp_worddict := Some w |}.

Definition call_transform_to_indices (pp : Preprocessor) (d : Data) : M TData :=
  let t := transform_to_indices pp d in
  emit (ETransform d (pp_worddict pp) t) ;;; ret t.

Definition call_build_embedding_matrix (pp : Preprocessor) (p : path) : M Emb :=
  let e := build_embedding_matrix pp p in emit (EBuildEmbedding p e) ;;; ret e.

(** [with open(p, 'wb') as pkl_file: pickle.dump(v, pkl_file)] *)
Definition pickle_dump (p : path) (v : pickled) : M unit := emit (EDump p v).

(** The character ["\t"]. *)
Definition tab : string := String (ascii_of_nat 9) "".

Definition banner (title : string) : list string :=
  [str_repeat 20 "="; title; str_repeat 20 "="].

(** [preprocess_SNLI_data] (lines 14-121). *)
Definition preprocess_SNLI_data (inputdir embeddings_file targetdir : path)
  (o : PreprocessorOptions) : M unit :=
  ex <- os_path_exists targetdir ;;
  (if negb ex then os_makedirs targetdir else ret tt) ;;;
  files <- os_listdir inputdir ;;
  let '(train_file, dev_file, test_file) := select_files files in
  (* train *)
  preprocessor <- new_preprocessor o ;;
  print (banner " Preprocessing train set ") ;;;
  print [tab ++ "* Reading data..."] ;;;
  data <- call_read_data preprocessor (join inputdir train_file) ;;
  print [tab ++ "* Computing worddict and saving it..."] ;;;
  preprocessor <- call_build_worddict preprocessor data ;;
  pickle_dump (join targetdir "worddict.pkl") (PWorddict (pp_worddict preprocessor)) ;;;
  print [tab ++ "* Transforming words in premises and hypotheses to indices..."] ;;;
  transformed_data <- call_transform_to_indices preprocessor data ;;
  print [tab ++ "* Saving result..."] ;;;
  pickle_dump (join targetdir "train_data.pkl") (PData transformed_data) ;;;
  (* dev *)
  print (banner " Preprocessing dev set ") ;;;
  print [tab ++ "* Reading data..."] ;;;
  data <- call_read_data preprocessor (join inputdir dev_file) ;;
  print [tab ++ "* Transforming words in premises and hypotheses to indices..."] ;;;
  transformed_data <- call_transform_to_indices preprocessor data ;;
  print [tab ++ "* Saving result..."] ;;;
  pickle_dump (join targetdir "dev_data.pkl") (PData transformed_data) ;;;
  (* test *)
  print (banner " Preprocessing test set ") ;;;
  print [tab ++ "* Reading data..."] ;;;
  data <- call_read_data preprocessor (join inputdir test_file) ;;
  print [tab ++ "* Transforming words in premises and hypotheses to indices..."] ;;;
  transformed_data <- call_transform_to_indices preprocessor data ;;
  print [tab ++ "* Saving result..."] ;;;
  pickle_dump (join targetdir "test_data.pkl") (PData transformed_data) ;;;
  (* embeddings *)
  print (banner " Preprocessing embeddings ") ;;;
  print [tab ++ "* Building embedding matrices and saving them..."] ;;;
  embed_matrix <- call_build_embedding_matrix preprocessor embeddings_file ;;
  pickle_dump (join targetdir "embeddings.pkl") (PEmb embed_matrix).

(** The configuration file's keys read at lines 136-145. *)
Record Config := {
  data_dir : string;
  embeddings_file : string;
  target_dir : string;
  lowercase : bool;
  ignore_punctuation : bool;
  num_words : option nat;
  stopwords : list string;
  labeldict : list (string * nat);
  bos : option string;
  eos : option string
}.

(** [os.path.normpath] and [json.load] of a configuration file. *)
Context (normpath : path -> path)
        (json_load : path -> Config).

(** The [__main__] block after [parser.parse_args()] (lines 133-145), given
    the parsed value of [args.config]. *)
Definition main (args_config : path) : M unit :=
  let p := normpath args_config in
  emit (EOpenConfig p) ;;;
  let config := json_load p in
  preprocess_SNLI_data (normpath (data_dir config))
    (normpath (embeddings_file config))
    (normpath (target_dir config))
    {| opt_lowercase := lowercase config;
       opt_ignore_punctuation := ignore_punctuation config;
       opt_num_words := num_words config;
       opt_stopwords := stopwords config;
       opt_labeldict := labeldict config;
       opt_bos := bos config;
       opt_eos := eos config |}.

End Script.

(** ** The command line (lines 127-131) *)

Inductive ActionKind := AHelp | AStore.

(** An argparse action as the parser registers it. *)
Record Action := {
  option_strings : list string;
  dest : string;
  kind : ActionKind;
  default : option string
}.

Record ArgumentParser := {
  description : string;
  actions : list Action
}.

(** The [-h/--help] action that [ArgumentParser] adds itself when
    [add_help=True], its default: [_HelpAction] with [dest] and [default]
    both [argparse.SUPPRESS], whose value is ["==SUPPRESS=="]; the parser
    registers it under [dest='help']. *)
Definition help_action : Action :=
  {| option_strings := ["-h"; "--help"]; dest := "help"; kind := AHelp;
     default := Some "==SUPPRESS==" |}.

(** [argparse.ArgumentParser(description=d, add_help=add_help)] *)
Definition ArgumentParser_new (d : string) (add_help : bool) : ArgumentParser :=
  {| description := d; actions := if add_help then [help_action] else [] |}.

(** [parser.add_argument(opt, default=v)] for a long option [--name]: a
    store action whose destination is [name]. *)
Definition add_argument (p : ArgumentParser) (opt v : string) : ArgumentParser :=
  {| description := description p;
     actions := (actions p ++
       [{| option_strings := [opt];
           dest := String.substring 2 (String.length opt - 2) opt;
           kind := AStore; default := Some v |}])%list |}.

Definition parser : ArgumentParser :=
  add_argument (ArgumentParser_new "Preprocess an NLI dataset" true)
    "--config" "../config/preprocessing.json".

(** ** Views of a trace used to state properties of a run *)

Section Views.
Context {Data TData WordDict Emb : Type}.

Definition is_read (e : @event Data TData WordDict Emb) : bool :=
  match e with EReadData _ _ => true | _ => false end.
Definition is_build_worddict (e : @event Data TData WordDict Emb) : bool :=
  match e with EBuildWorddict _ _ => true | _ => false end.
Definition is_transform (e : @event Data TData WordDict Emb) : bool :=
  match e with ETransform _ _ _ => true | _ => false end.
Definition is_build_embedding (e : @event Data TData WordDict Emb) : bool :=
  match e with EBuildEmbedding _ _ => true | _ => false end.
Definition is_dump (e : @event Data TData WordDict Emb) : bool :=
  match e with EDump _ _ => true | _ => false end.

(** Events that are calls on the [Preprocessor] (its constructor included). *)
Definition is_pp_call (e : @event Data TData WordDict Emb) : bool :=
  match e with
  | ENewPreprocessor _ | EReadData _ _ | EBuildWorddict _ _
  | ETransform _ _ _ | EBuildEmbedding _ _ => true
  | _ => false
  end.

(** Events that modify the file system. *)
Definition is_write (e : @event Data TData WordDict Emb) : bool :=
  match e with EMakedirs _ | EDump _ _ => true | _ => false end.

Definition write_target (e : @event Data TData WordDict Emb) : path :=
  match e with EMakedirs p | EDump p _ => p | _ => "" end.

(** The events before the first one satisfying [p]. *)
Fixpoint take_until (p : event -> bool) (tr : list (@event Data TData WordDict Emb)) : list (@event Data TData WordDict Emb) :=
  match tr with
  | [] => []
  | e :: rest => if p e then [] else e :: take_until p rest
  end.

(** [e] is the call whose result is the pickled value [v]. *)
Definition produces (e : @event Data TData WordDict Emb) (v : @pickled TData WordDict Emb) : Prop :=
  match e, v with
  | EBuildWorddict _ w, PWorddict w' => Some w = w'
  | ETransform _ _ t, PData t' => t = t'
  | EBuildEmbedding _ x, PEmb x' => x = x'
  | _, _ => False
  end.

(** Every dump is preceded, in the trace, by the call that produced its
    value; [seen] holds the events already executed. *)
Fixpoint dumps_after_producers (seen tr : list (@event Data TData WordDict Emb)) : Prop :=
  match tr with
  | [] => True
  | EDump p v :: rest =>
      Exists (fun e => produces e v) seen /\
      dumps_after_producers (seen ++ [EDump p v]) rest
  | e :: rest => dumps_after_producers (seen ++ [e]) rest
  end.

End Views.

(** ** Reading the selection loop *)

(** The last element of [l] satisfying [p], or [dflt] when there is none. *)
Definition last_or (dflt : string) (p : string -> bool) (l : list string) : string :=
  match rev (filter p l) with
  | [] => dflt
  | x :: _ => x
  end.

(** [s] ends with [lit]. *)
Fixpoint ends_with (s lit : string) : bool :=
  String.eqb s lit ||
  match s with
  | EmptyString => false
  | String _ s' => ends_with s' lit
  end.

(** The three slots of the selection loop. *)
Inductive slot := Train | Dev | Test.

Definition pattern_of (s : slot) : string :=
  match s with Train => train_pat | Dev => dev_pat | Test => test_pat end.

Definition slot_file (s : slot) (sel : string * string * string) : string :=
  let '(t, d, x) := sel in
  match s with Train => t | Dev => d | Test => x end.

(** Position of the slot's [read_data] call among the run's reads. *)
Definition slot_index (s : slot) : nat :=
  match s with Train => 0 | Dev => 1 | Test => 2 end.

(** [lit] contains neither [*] nor [?]. *)
Fixpoint no_wildcard (lit : string) : bool :=
  match lit with
  | EmptyString => true
  | String c lit' =>
      negb (Ascii.eqb c "*"%char) && negb (Ascii.eqb c "?"%char) && no_wildcard lit'
  end.

(** The conditions under which the [if / elif / elif] chain assigns a
    file to each slot. *)
Definition takes_train (f : string) : bool := fnmatch f train_pat.
Definition takes_dev (f : string) : bool :=
  negb (fnmatch f train_pat) && fnmatch f dev_pat.
Definition takes_test (f : string) : bool :=
  negb (fnmatch f train_pat) && negb (fnmatch f dev_pat) && fnmatch f test_pat.

(** A name matches one of the three dataset patterns. *)
Definition any_pat (f : string) : bool :=
  fnmatch f train_pat || fnmatch f dev_pat || fnmatch f test_pat.

Section Views2.
Context {Data TData WordDict Emb : Type}.

(** The text of the print events of a trace, in order. *)
Definition printed_lines (tr : list (@event Data TData WordDict Emb)) : list string :=
  flat_map (fun e => match e with EPrint s => [s] | _ => [] end) tr.

(** Reads, pickle writes and the embedding build of a trace, as
    (kind, path) pairs. *)
Definition io_steps (tr : list (@event Data TData WordDict Emb)) : list (string * path) :=
  flat_map (fun e => match e with
                     | EReadData p _ => [("read", p)]
                     | EDump p _ => [("dump", p)]
                     | EBuildEmbedding p _ => [("embed", p)]
                     | _ => []
                     end) tr.

(** The file-system paths an event opens, checks, lists, creates, reads or
    writes. *)
Definition io_paths (e : @event Data TData WordDict Emb) : list path :=
  match e with
  | EOpenConfig p | EPathExists p _ | EMakedirs p | EListdir p _
  | EReadData p _ | EBuildEmbedding p _ | EDump p _ => [p]
  | _ => []
  end.

End Views2.

(** ** A concrete collaborator, to run the script on explicit inputs *)

Module Demo.

(** Data are file contents (here: the path), word dictionaries and
    embeddings are sizes. *)
Definition read_data (_ : @Preprocessor nat) (p : path) : string := p.
Definition build_worddict (_ : @Preprocessor nat) (d : string) : nat :=
  String.length d.
Definition transform_to_indices (_ : @Preprocessor nat) (d : string) : string := d.
Definition build_embedding_matrix (_ : @Preprocessor nat) (_ : path) : nat := 300.

Definition options : PreprocessorOptions :=
  {| opt_lowercase := true; opt_ignore_punctuation := true;
     opt_num_words := None; opt_stopwords := []; opt_labeldict := [];
     opt_bos := Some "_BOS_"; opt_eos := Some "_EOS_" |}.

Definition snli_listing : list string :=
  ["snli_1.0_train.txt"; "snli_1.0_dev.txt"; "snli_1.0_test.txt"; "README.txt"].

Definition run (listing : list string) : list (@event string string nat nat) :=
  trace_of (preprocess_SNLI_data read_data build_worddict transform_to_indices
              build_embedding_matrix (fun _ => false) (fun _ => listing)
              "data/snli_1.0" "data/embeddings/glove.840B.300d.txt"
              "data/preprocessed" options).

(** A configuration in the format the script reads: the keys it looks up in
    the loaded JSON object. *)
Definition config : Config :=
  {| data_dir := "../data/dataset/snli_1.0";
     embeddings_file := "../data/embeddings/glove.840B.300d.txt";
     target_dir := "../data/preprocessed/SNLI";
     lowercase := false; ignore_punctuation := false; num_words := None;
     stopwords := []; labeldict := [("entailment", 0); ("neutral", 1); ("contradiction", 2)];
     bos := Some "_BOS_"; eos := Some "_EOS_" |}.

(** The script run with the default [--config], on the SNLI listing. *)
Definition main_run : list (@event string string nat nat) :=
  trace_of (main read_data build_worddict transform_to_indices
              build_embedding_matrix (fun _ => false) (fun _ => snli_listing)
              (fun p => p) (fun _ => config) "../config/preprocessing.json").

End Demo.

(** * Proofs *)

(** ** Patterns *)

Lemma fnmatch_literal (lit s : string) :
  no_wildcard lit = true -> fnmatch s lit = String.eqb s lit.
Proof.
  revert s; induction lit as [|c lit IH]; intros s Hlit.
  - reflexivity.
  - simpl in Hlit. simpl fnmatch.
    destruct (Ascii.eqb c "*"%char), (Ascii.eqb c "?"%char); try discriminate.
    simpl in Hlit. destruct s as [|c' s']; [reflexivity|].
    simpl. rewrite (IH s' Hlit), Ascii.eqb_sym. reflexivity.
Qed.

(** A pattern [*lit] matches exactly the names that end with [lit]. *)
Lemma fnmatch_star_suffix (lit s : string) :
  no_wildcard lit = true -> fnmatch s (String "*" lit) = ends_with s lit.
Proof.
  intros Hlit. induction s as [|c s IH]; simpl fnmatch; simpl ends_with;
    rewrite ?fnmatch_literal by exact Hlit.
  - reflexivity.
  - rewrite <- IH. reflexivity.
Qed.

Lemma train_pat_suffix (s : string) : fnmatch s train_pat = ends_with s "_train.txt".
Proof. apply fnmatch_star_suffix; reflexivity. Qed.

Lemma dev_pat_suffix (s : string) : fnmatch s dev_pat = ends_with s "_dev.txt".
Proof. apply fnmatch_star_suffix; reflexivity. Qed.

Lemma test_pat_suffix (s : string) : fnmatch s test_pat = ends_with s "_test.txt".
Proof. apply fnmatch_star_suffix; reflexivity. Qed.

Lemma ends_with_cons (c : Ascii.ascii) (s lit : string) :
  ends_with (String c s) lit = String.eqb (String c s) lit || ends_with s lit.
Proof. reflexivity. Qed.

(** Two suffixes neither of which ends with the other never both end one
    name. *)
Lemma ends_with_exclusive (a b s : string) :
  ends_with a b = false -> ends_with b a = false ->
  ends_with s a = true -> ends_with s b = false.
Proof.
  intros Hab Hba. induction s as [|c s IH]; intros Ha.
  - destruct a as [|ca a]; [|discriminate].
    destruct b as [|cb b]; [discriminate|reflexivity].
  - rewrite ends_with_cons in Ha |- *.
    apply orb_true_iff in Ha as [Ha|Ha].
    + apply String.eqb_eq in Ha. rewrite <- ends_with_cons, Ha. exact Hab.
    + rewrite (IH Ha), orb_false_r.
      destruct (String.eqb (String c s) b) eqn:Hb; [|reflexivity].
      apply String.eqb_eq in Hb. subst b.
      rewrite ends_with_cons, Ha, orb_true_r in Hba. discriminate.
Qed.

Lemma dev_not_train (s : string) :
  fnmatch s dev_pat = true -> fnmatch s train_pat = false.
Proof.
  rewrite dev_pat_suffix, train_pat_suffix.
  apply ends_with_exclusive; reflexivity.
Qed.

Lemma test_not_train (s : string) :
  fnmatch s test_pat = true -> fnmatch s train_pat = false.
Proof.
  rewrite test_pat_suffix, train_pat_suffix.
  apply ends_with_exclusive; reflexivity.
Qed.

Lemma test_not_dev (s : string) :
  fnmatch s test_pat = true -> fnmatch s dev_pat = false.
Proof.
  rewrite test_pat_suffix, dev_pat_suffix.
  apply ends_with_exclusive; reflexivity.
Qed.

(** ** The selection loop *)

Lemma last_or_cons (d : string) (p : string -> bool) (x : string) (l : list string) :
  last_or d p (x :: l) = last_or (if p x then x else d) p l.
Proof.
  unfold last_or; simpl.
  destruct (p x); simpl; [|reflexivity].
  destruct (rev (filter p l)); reflexivity.
Qed.

Lemma last_or_snoc (d : string) (p : string -> bool) (l : list string) (y : string) :
  last_or d p (l ++ [y]) = if p y then y else last_or d p l.
Proof.
  unfold last_or. rewrite filter_app; simpl.
  destruct (p y); simpl; [rewrite rev_app_distr|rewrite app_nil_r]; reflexivity.
Qed.

Lemma select_step_eq (a b c x : string) :
  select_step (a, b, c) x =
  (if takes_train x then x else a, if takes_dev x then x else b,
   if takes_test x then x else c).
Proof.
  unfold select_step, takes_train, takes_dev, takes_test.
  destruct (fnmatch x train_pat); [reflexivity|].
  destruct (fnmatch x dev_pat); [reflexivity|].
  destruct (fnmatch x test_pat); reflexivity.
Qed.

Lemma select_fold (l : list string) (a b c : string) :
  fold_left select_step l (a, b, c) =
  (last_or a takes_train l, last_or b takes_dev l, last_or c takes_test l).
Proof.
  revert a b c; induction l as [|x l IH]; intros a b c; [reflexivity|].
  cbn [fold_left]. rewrite !last_or_cons, select_step_eq. apply IH.
Qed.

Lemma select_files_last (l : list string) :
  select_files l =
  (last_or "" takes_train l, last_or "" takes_dev l, last_or "" takes_test l).
Proof. apply select_fold. Qed.

(** Because the three suffixes exclude one another, the [elif] guards
    reduce to the slot's own pattern. *)
Lemma takes_dev_pat (f : string) : takes_dev f = fnmatch f dev_pat.
Proof.
  unfold takes_dev. destruct (fnmatch f dev_pat) eqn:Hd.
  - now rewrite (dev_not_train f Hd).
  - now rewrite andb_false_r.
Qed.

Lemma takes_test_pat (f : string) : takes_test f = fnmatch f test_pat.
Proof.
  unfold takes_test. destruct (fnmatch f test_pat) eqn:Ht.
  - now rewrite (test_not_train f Ht), (test_not_dev f Ht).
  - now rewrite andb_false_r.
Qed.

Lemma last_or_ext (d : string) (p q : string -> bool) (l : list string) :
  (forall f, p f = q f) -> last_or d p l = last_or d q l.
Proof. intros H. unfold last_or. now rewrite (filter_ext p q H). Qed.

(** [last_or d p l] is [d] when nothing in [l] satisfies [p], and otherwise
    an element satisfying [p] after which no element of [l] does. *)
Lemma last_or_cases (d : string) (p : string -> bool) (l : list string) :
  (last_or d p l = d /\ forall f, In f l -> p f = false) \/
  (exists pre post, l = (pre ++ last_or d p l :: post)%list /\
     p (last_or d p l) = true /\ forall f, In f post -> p f = false).
Proof.
  induction l as [|y l IH] using rev_ind.
  - left. split; [reflexivity|]. intros f [].
  - rewrite last_or_snoc. destruct (p y) eqn:Hy.
    + right. exists l, []. repeat split; [exact Hy|]. intros f [].
    + destruct IH as [[Hd Hnone]|(pre & post & Hl & Hp & Hpost)].
      * left. split; [exact Hd|]. intros f Hf.
        apply in_app_or in Hf as [Hf|[<-|[]]]; auto.
      * right. exists pre, (post ++ [y])%list. repeat split.
        -- rewrite Hl at 1. rewrite <- app_assoc. reflexivity.
        -- exact Hp.
        -- intros f Hf. apply in_app_or in Hf as [Hf|[<-|[]]]; auto.
Qed.

(** The slot a file lands in is the last name of the listing matching the
    slot's pattern, or [""] when no name matches. *)
Lemma slot_selection (l : list string) (s : slot) :
  let f := slot_file s (select_files l) in
  (f = "" /\ forall g, In g l -> fnmatch g (pattern_of s) = false) \/
  (exists pre post, l = (pre ++ f :: post)%list /\
     fnmatch f (pattern_of s) = true /\
     forall g, In g post -> fnmatch g (pattern_of s) = false).
Proof.
  rewrite select_files_last. destruct s; cbn [slot_file pattern_of].
  - exact (last_or_cases "" takes_train l).
  - rewrite (last_or_ext "" takes_dev (fun f => fnmatch f dev_pat) l takes_dev_pat).
    apply last_or_cases.
  - rewrite (last_or_ext "" takes_test (fun f => fnmatch f test_pat) l takes_test_pat).
    apply last_or_cases.
Qed.

(** Each slot holds [""] or a name of the listing. *)
Lemma slot_file_in (l : list string) (s : slot) :
  slot_file s (select_files l) = "" \/ In (slot_file s (select_files l)) l.
Proof.
  destruct (slot_selection l s) as [[H _]|(pre & post & Hl & _ & _)]; [now left|].
  right. pose proof (in_elt (slot_file s (select_files l)) pre post) as Hin.
  now rewrite <- Hl in Hin.
Qed.

Lemma append_empty_r (s : string) : s ++ "" = s.
Proof. induction s as [|c s IH]; simpl; [reflexivity|now rewrite IH]. Qed.

(** ** Runs of the script *)

Section Runs.

Context {Data TData WordDict Emb : Type}.
Context (read_data : @Preprocessor WordDict -> path -> Data)
        (build_worddict : @Preprocessor WordDict -> Data -> WordDict)
        (transform_to_indices : @Preprocessor WordDict -> Data -> TData)
        (build_embedding_matrix : @Preprocessor WordDict -> path -> Emb)
        (path_exists : path -> bool)
        (listdir : path -> list string)
        (normpath : path -> path)
        (json_load : path -> Config).

Local Abbreviation run inputdir ef targetdir o :=
  (trace_of (preprocess_SNLI_data read_data build_worddict transform_to_indices
     build_embedding_matrix path_exists listdir inputdir ef targetdir o)).

(** Unfold a run into its explicit trace. *)
Local Ltac run_script :=
  unfold trace_of, main, preprocess_SNLI_data, bind, ret, emit, os_path_exists,
    os_makedirs, os_listdir, print, new_preprocessor, call_read_data,
    call_build_worddict, call_transform_to_indices,
    call_build_embedding_matrix, pickle_dump;
  cbn -[banner tab join select_files];
  let trf := fresh "train_file" in
  let dvf := fresh "dev_file" in
  let tsf := fresh "test_file" in
  destruct (select_files _) as [[trf dvf] tsf];
  destruct (path_exists _); cbn -[banner tab join].

(** Prove [In x l] for an explicit list [l]. *)
Local Ltac in_list := repeat (first [left; reflexivity | right]).

(** Prove [Exists P l] for an explicit list [l] and a computable [P]. *)
Local Ltac exists_list :=
  repeat (first [apply Exists_cons_hd; cbn [produces]; reflexivity
                | apply Exists_cons_tl]).

(** C1 (amended): one run calls, on one [Preprocessor] object and in this
    order, its constructor, [read_data] on the train file, [build_worddict]
    on that data, [transform_to_indices] on it, then [read_data] and
    [transform_to_indices] for the dev file and for the test file, and
    finally [build_embedding_matrix] on the embeddings file; no other call
    is made on it. *)
Theorem C1_preprocessor_calls (inputdir ef targetdir : path) (o : PreprocessorOptions) :
  let '(trf, dvf, tsf) := select_files (listdir inputdir) in
  exists (d1 d2 d3 : Data) (w : WordDict) (t1 t2 t3 : TData) (e : Emb),
    filter is_pp_call (run inputdir ef targetdir o) =
    [ENewPreprocessor o;
     EReadData (join inputdir trf) d1; EBuildWorddict d1 w; ETransform d1 (Some w) t1;
     EReadData (join inputdir dvf) d2; ETransform d2 (Some w) t2;
     EReadData (join inputdir tsf) d3; ETransform d3 (Some w) t3;
     EBuildEmbedding ef e].
Proof. run_script; do 8 eexists; reflexivity. Qed.

(** C3: a run pickles exactly five values into [targetdir], in this order:
    the word dictionary built from the train data to [worddict.pkl], the
    transformed train, dev and test data to [train_data.pkl],
    [dev_data.pkl] and [test_data.pkl], and the embedding matrix to
    [embeddings.pkl]. *)
Theorem C3_five_pickles (inputdir ef targetdir : path) (o : PreprocessorOptions) :
  let tr := run inputdir ef targetdir o in
  let '(trf, dvf, tsf) := select_files (listdir inputdir) in
  exists (d1 d2 d3 : Data) (w : WordDict) (t1 t2 t3 : TData) (e : Emb),
    filter is_dump tr =
    [EDump (join targetdir "worddict.pkl") (PWorddict (Some w));
     EDump (join targetdir "train_data.pkl") (PData t1);
     EDump (join targetdir "dev_data.pkl") (PData t2);
     EDump (join targetdir "test_data.pkl") (PData t3);
     EDump (join targetdir "embeddings.pkl") (PEmb e)] /\
    In (EReadData (join inputdir trf) d1) tr /\ In (EBuildWorddict d1 w) tr /\
    In (ETransform d1 (Some w) t1) tr /\
    In (EReadData (join inputdir dvf) d2) tr /\ In (ETransform d2 (Some w) t2) tr /\
    In (EReadData (join inputdir tsf) d3) tr /\ In (ETransform d3 (Some w) t3) tr /\
    In (EBuildEmbedding ef e) tr.
Proof.
  run_script; do 8 eexists; (split; [reflexivity|]); repeat split; in_list.
Qed.

(** C4: [build_worddict] is called exactly once, on the data read from the
    train file (the only [read_data] before it), before any
    [transform_to_indices]; and every [transform_to_indices] runs with the
    word dictionary it built. *)
Theorem C4_single_worddict (inputdir ef targetdir : path) (o : PreprocessorOptions) :
  let tr := run inputdir ef targetdir o in
  exists (d1 : Data) (w : WordDict),
    filter is_build_worddict tr = [EBuildWorddict d1 w] /\
    filter is_read (take_until is_build_worddict tr) =
      [EReadData (join inputdir (slot_file Train (select_files (listdir inputdir)))) d1] /\
    filter is_transform (take_until is_build_worddict tr) = [] /\
    (forall d w' t, In (ETransform d w' t) tr -> w' = Some w).
Proof.
  run_script; do 2 eexists; (split; [reflexivity|]); (split; [reflexivity|]);
    (split; [reflexivity|]); intros d w' t Hin; simpl in Hin; intuition congruence.
Qed.

(** C5: the entry point first opens the configuration file, then runs
    [preprocess_SNLI_data] on the values parsed from it; every value pickled
    is the result of a call made earlier in the run. *)
Theorem C5_order (args_config : path) :
  let tr := trace_of (main read_data build_worddict transform_to_indices
                        build_embedding_matrix path_exists listdir normpath json_load
                        args_config) in
  let config := json_load (normpath args_config) in
  hd_error tr = Some (EOpenConfig (normpath args_config)) /\
  tl tr = run (normpath (data_dir config)) (normpath (embeddings_file config))
              (normpath (target_dir config))
              {| opt_lowercase := lowercase config;
                 opt_ignore_punctuation := ignore_punctuation config;
                 opt_num_words := num_words config;
                 opt_stopwords := stopwords config;
                 opt_labeldict := labeldict config;
                 opt_bos := bos config; opt_eos := eos config |} /\
  dumps_after_producers [] tr.
Proof.
  run_script; (split; [reflexivity|]); (split; [reflexivity|]);
    repeat split; exists_list.
Qed.

(** C7: every run ends after a fixed sequence of steps: its trace has 31
    events, plus one when the target directory has to be created, whatever
    the listing and the collaborator's results. *)
Theorem C7_fixed_length (inputdir ef targetdir : path) (o : PreprocessorOptions) :
  length (run inputdir ef targetdir o) = if path_exists targetdir then 31 else 32.
Proof. run_script; reflexivity. Qed.

(** C8: when no name of the listing matches a slot's pattern, the slot's
    file stays [""] and the run still reads it: the slot's [read_data] call
    gets [join inputdir ""], which is [inputdir] itself or [inputdir] with
    a trailing ['/']. *)
Theorem C8_missing_file (inputdir ef targetdir : path) (o : PreprocessorOptions)
  (s : slot)
  (Hnone : forall f, In f (listdir inputdir) -> fnmatch f (pattern_of s) = false) :
  slot_file s (select_files (listdir inputdir)) = "" /\
  (exists d, nth_error (filter is_read (run inputdir ef targetdir o)) (slot_index s) =
             Some (EReadData (join inputdir "") d)) /\
  (join inputdir "" = inputdir \/ join inputdir "" = inputdir ++ "/").
Proof.
  assert (Hempty : slot_file s (select_files (listdir inputdir)) = "").
  { destruct (slot_selection (listdir inputdir) s) as [[H _]|(pre & post & Hl & Hm & _)];
      [exact H|].
    exfalso. rewrite Hnone in Hm; [discriminate|].
    pose proof (in_elt (slot_file s (select_files (listdir inputdir))) pre post) as Hin.
    rewrite <- Hl in Hin. exact Hin. }
  split; [exact Hempty|split].
  - revert Hempty. run_script; intros Hempty; destruct s; simpl in Hempty;
      subst; eexists; reflexivity.
  - unfold join. simpl. destruct (String.eqb inputdir "" || endswith inputdir "/").
    + left. apply append_empty_r.
    + right. reflexivity.
Qed.

(** C10: the only file-system changes of a run are the creation of
    [targetdir] (with [os.makedirs], when it does not exist), before
    anything else is written, followed by the five pickle files
    [join targetdir name]; each of these paths lies inside [targetdir]. *)
Theorem C10_writes (inputdir ef targetdir : path) (o : PreprocessorOptions) :
  map (fun e => (is_dump e, write_target e))
      (filter is_write (run inputdir ef targetdir o)) =
  ((if path_exists targetdir then [] else [(false, targetdir)]) ++
   map (fun n => (true, join targetdir n))
     ["worddict.pkl"; "train_data.pkl"; "dev_data.pkl"; "test_data.pkl";
      "embeddings.pkl"])%list /\
  Forall (fun n => join targetdir n = targetdir ++ "/" ++ n \/ join targetdir n = targetdir ++ n)
    ["worddict.pkl"; "train_data.pkl"; "dev_data.pkl"; "test_data.pkl";
     "embeddings.pkl"].
Proof.
  split.
  - run_script; reflexivity.
  - unfold join; simpl. destruct (String.eqb targetdir "" || endswith targetdir "/");
      repeat (apply Forall_cons; [first [left; reflexivity | right; reflexivity]|]);
      apply Forall_nil.
Qed.

(** X6: every [read_data] call of a run is on [join inputdir f], where [f]
    is a name of the directory listing or the empty string. *)
Theorem X6_reads_from_listing (inputdir ef targetdir : path) (o : PreprocessorOptions)
  (p : path) (d : Data) :
  In (EReadData p d) (run inputdir ef targetdir o) ->
  exists f, p = join inputdir f /\ (f = "" \/ In f (listdir inputdir)).
Proof.
  pose proof (slot_file_in (listdir inputdir) Train) as HT.
  pose proof (slot_file_in (listdir inputdir) Dev) as HD.
  pose proof (slot_file_in (listdir inputdir) Test) as HX.
  revert HT HD HX. run_script; intros HT HD HX Hin; simpl in Hin;
    repeat (destruct Hin as [Hin|Hin];
            [first [discriminate
                   | injection Hin as Hp _; subst p; eexists; split;
                     [reflexivity|assumption]]|]);
    contradiction.
Qed.

(** X7: a run alternates reads and writes: the train file is read, then
    [worddict.pkl] and [train_data.pkl] are written, before the dev file is
    read; [dev_data.pkl] is written before the test file is read;
    [test_data.pkl] is written before the embeddings are built, and
    [embeddings.pkl] last. *)
Theorem X7_io_order (inputdir ef targetdir : path) (o : PreprocessorOptions) :
  io_steps (run inputdir ef targetdir o) =
  [("read", join inputdir (slot_file Train (select_files (listdir inputdir))));
   ("dump", join targetdir "worddict.pkl");
   ("dump", join targetdir "train_data.pkl");
   ("read", join inputdir (slot_file Dev (select_files (listdir inputdir))));
   ("dump", join targetdir "dev_data.pkl");
   ("read", join inputdir (slot_file Test (select_files (listdir inputdir))));
   ("dump", join targetdir "test_data.pkl");
   ("embed", ef);
   ("dump", join targetdir "embeddings.pkl")].
Proof. run_script; reflexivity. Qed.

(** X9: the console output of a run is the same fifteen lines whatever
    the inputs, the listing and the collaborator's results. *)
Theorem X9_console_output (inputdir ef targetdir : path) (o : PreprocessorOptions) :
  printed_lines (run inputdir ef targetdir o) =
  ["====================  Preprocessing train set  ====================";
   tab ++ "* Reading data...";
   tab ++ "* Computing worddict and saving it...";
   tab ++ "* Transforming words in premises and hypotheses to indices...";
   tab ++ "* Saving result...";
   "====================  Preprocessing dev set  ====================";
   tab ++ "* Reading data...";
   tab ++ "* Transforming words in premises and hypotheses to indices...";
   tab ++ "* Saving result...";
   "====================  Preprocessing test set  ====================";
   tab ++ "* Reading data...";
   tab ++ "* Transforming words in premises and hypotheses to indices...";
   tab ++ "* Saving result...";
   "====================  Preprocessing embeddings  ====================";
   tab ++ "* Building embedding matrices and saving them..."].
Proof. run_script; reflexivity. Qed.

(** C6 (amended): the parser declares one option of its own, [--config],
    storing a value with default ["../config/preprocessing.json"], next to
    the [-h/--help] action that [argparse] adds by default (its default is
    [argparse.SUPPRESS]); it declares no positional argument.  Whatever
    value [--config] takes, the script then only opens that file, works on
    the local file system, prints and calls the [Preprocessor]: every path
    it touches is the configuration file, the target, input or embeddings
    path named in it, a file of the input directory selected from its
    listing, or one of the five pickles of the target directory; there is
    no network endpoint among its effects. *)
Theorem C6_cli_options (args_config : path) :
  map (fun a => (option_strings a, kind a, default a)) (actions parser) =
    [(["-h"; "--help"], AHelp, Some "==SUPPRESS==");
     (["--config"], AStore, Some "../config/preprocessing.json")] /\
  map dest (actions parser) = ["help"; "config"] /\
  let cfg := json_load (normpath args_config) in
  let inputdir := normpath (data_dir cfg) in
  let ef := normpath (embeddings_file cfg) in
  let targetdir := normpath (target_dir cfg) in
  let sel := select_files (listdir inputdir) in
  let allowed :=
    [normpath args_config; targetdir; inputdir; ef;
     join inputdir (slot_file Train sel); join inputdir (slot_file Dev sel);
     join inputdir (slot_file Test sel);
     join targetdir "worddict.pkl"; join targetdir "train_data.pkl";
     join targetdir "dev_data.pkl"; join targetdir "test_data.pkl";
     join targetdir "embeddings.pkl"] in
  forall e, In e (trace_of (main read_data build_worddict transform_to_indices
                   build_embedding_matrix path_exists listdir normpath json_load
                   args_config)) ->
    Forall (fun p => In p allowed) (io_paths e).
Proof.
  split; [reflexivity|]. split; [reflexivity|].
  run_script; intros e Hin;
  repeat (destruct Hin as [<-|Hin];
          [cbn [io_paths];
           repeat (apply Forall_cons; [cbv beta; in_list|]); apply Forall_nil|]);
  contradiction.
Qed.

End Runs.

(** ** File selection *)

(** C2 (amended): each slot receives the last name of the listing that
    matches its pattern ([*_train.txt], [*_dev.txt], [*_test.txt]), or [""]
    when no name matches; only the names are consulted. *)
Theorem C2_selection_by_pattern (l : list string) (s : slot) :
  let f := slot_file s (select_files l) in
  (f = "" /\ forall g, In g l -> fnmatch g (pattern_of s) = false) \/
  (exists pre post, l = (pre ++ f :: post)%list /\
     fnmatch f (pattern_of s) = true /\
     forall g, In g post -> fnmatch g (pattern_of s) = false).
Proof. apply slot_selection. Qed.

(** C2 as stated fails: with two train files in the listing, the first
    one matches [*_train.txt] but is not chosen. *)
Lemma C2_counterexample :
  ~ (forall (l : list string) (f : string), In f l ->
       (fnmatch f train_pat = true <-> slot_file Train (select_files l) = f)).
Proof.
  intros H.
  destruct (H ["a_train.txt"; "b_train.txt"] "a_train.txt" (or_introl eq_refl))
    as [H1 _].
  specialize (H1 eq_refl). vm_compute in H1. discriminate.
Qed.

(** C9: each later match overwrites the earlier one, so every slot holds
    the last name of the listing taken by its branch of the [if / elif]
    chain; in particular a name matching [*_train.txt] never lands in the
    dev or test slot. *)
Theorem C9_last_match (l : list string) :
  select_files l =
    (last_or "" takes_train l, last_or "" takes_dev l, last_or "" takes_test l) /\
  fnmatch (slot_file Dev (select_files l)) train_pat = false /\
  fnmatch (slot_file Test (select_files l)) train_pat = false.
Proof.
  split; [apply select_files_last|].
  rewrite select_files_last; cbn [slot_file]. split.
  - destruct (last_or_cases "" takes_dev l) as [[-> _]|(pre & post & _ & Hm & _)];
      [reflexivity|].
    unfold takes_dev in Hm. apply andb_true_iff in Hm as [Hm _].
    now apply negb_true_iff in Hm.
  - destruct (last_or_cases "" takes_test l) as [[-> _]|(pre & post & _ & Hm & _)];
      [reflexivity|].
    unfold takes_test in Hm. apply andb_true_iff in Hm as [Hm _].
    apply andb_true_iff in Hm as [Hm _].
    now apply negb_true_iff in Hm.
Qed.

(** ** The command line *)

(** C6 as stated fails: the parser accepts [--help] (and [-h]) besides
    [--config]. *)
Lemma C6_counterexample :
  ~ (flat_map option_strings (actions parser) = ["--config"]).
Proof. intros H. vm_compute in H. discriminate. Qed.

(** The script, run with the default [--config], writes
    [train_data.pkl] into the configured target directory, a path of the
    allowed list. *)
Lemma C6_witness :
  In (EDump "../data/preprocessed/SNLI/train_data.pkl" (PData "../data/dataset/snli_1.0/snli_1.0_train.txt"))
     Demo.main_run /\
  Forall (fun p => In p
    ["../config/preprocessing.json"; "../data/preprocessed/SNLI";
     "../data/dataset/snli_1.0"; "../data/embeddings/glove.840B.300d.txt";
     "../data/dataset/snli_1.0/snli_1.0_train.txt";
     "../data/dataset/snli_1.0/snli_1.0_dev.txt";
     "../data/dataset/snli_1.0/snli_1.0_test.txt";
     "../data/preprocessed/SNLI/worddict.pkl";
     "../data/preprocessed/SNLI/train_data.pkl";
     "../data/preprocessed/SNLI/dev_data.pkl";
     "../data/preprocessed/SNLI/test_data.pkl";
     "../data/preprocessed/SNLI/embeddings.pkl"])
    (@io_paths string string nat nat (EDump "../data/preprocessed/SNLI/train_data.pkl"
                (PData "../data/dataset/snli_1.0/snli_1.0_train.txt"))).
Proof.
  assert (Hin : In (EDump "../data/preprocessed/SNLI/train_data.pkl"
                      (PData "../data/dataset/snli_1.0/snli_1.0_train.txt"))
                   Demo.main_run).
  { vm_compute. repeat (first [left; reflexivity | right]). }
  split; [exact Hin|].
  exact (proj2 (proj2 (C6_cli_options Demo.read_data Demo.build_worddict
           Demo.transform_to_indices Demo.build_embedding_matrix (fun _ => false)
           (fun _ => Demo.snli_listing) (fun p => p) (fun _ => Demo.config)
           "../config/preprocessing.json")) _ Hin).
Defined.

(** ** Collaborator calls on a concrete run *)

(** C1 as stated fails: a run on the SNLI listing calls [build_worddict],
    which is neither [read_data], [transform_to_indices] nor
    [build_embedding_matrix]. *)
Lemma C1_counterexample :
  ~ (forall e, In e (Demo.run Demo.snli_listing) -> is_pp_call e = true ->
       match e with
       | ENewPreprocessor _ | EReadData _ _ | ETransform _ _ _
       | EBuildEmbedding _ _ => true
       | _ => false
       end = true).
Proof.
  intros H.
  assert (Hlt : 8 < length (Demo.run Demo.snli_listing)) by (vm_compute; lia).
  specialize (H _ (nth_In _ (EPrint "") Hlt)).
  vm_compute in H. specialize (H eq_refl). discriminate.
Qed.

(** The hypothesis of C8 holds, and its conclusion follows, for a listing
    with no train file. *)
Lemma C8_witness :
  (forall f, In f ["README.txt"] -> fnmatch f (pattern_of Train) = false) /\
  (slot_file Train (select_files ["README.txt"]) = "" /\
   (exists d, nth_error (filter is_read (Demo.run ["README.txt"])) (slot_index Train) =
              Some (EReadData (join "data/snli_1.0" "") d)) /\
   (join "data/snli_1.0" "" = "data/snli_1.0" \/
    join "data/snli_1.0" "" = "data/snli_1.0" ++ "/")).
Proof.
  assert (H : forall f, In f ["README.txt"] -> fnmatch f (pattern_of Train) = false)
    by (intros f [<-|[]]; reflexivity).
  split; [exact H|].
  exact (C8_missing_file Demo.read_data Demo.build_worddict Demo.transform_to_indices
           Demo.build_embedding_matrix (fun _ => false) (fun _ => ["README.txt"])
           "data/snli_1.0" "data/embeddings/glove.840B.300d.txt" "data/preprocessed"
           Demo.options Train H).
Defined.

(** ** Further properties of the selection loop *)

Lemma ends_with_app (s lit : string) :
  ends_with s lit = true <-> exists pre, s = pre ++ lit.
Proof.
  split.
  - induction s as [|c s IH]; intros H.
    + exists "". destruct lit; [reflexivity|discriminate].
    + rewrite ends_with_cons in H. apply orb_true_iff in H as [H|H].
      * apply String.eqb_eq in H. exists "". now subst.
      * destruct (IH H) as [pre ->]. now exists (String c pre).
  - intros [pre ->]. induction pre as [|c pre IH].
    + destruct lit; simpl; [reflexivity|]. now rewrite Ascii.eqb_refl, String.eqb_refl.
    + simpl. rewrite IH, orb_true_r. reflexivity.
Qed.

(** X1: a name matches [*_train.txt] (resp. [*_dev.txt], [*_test.txt])
    exactly when it is some string followed by [_train.txt] (resp.
    [_dev.txt], [_test.txt]). *)
Theorem X1_patterns_are_suffixes (f : string) :
  (fnmatch f train_pat = true <-> exists pre, f = pre ++ "_train.txt") /\
  (fnmatch f dev_pat = true <-> exists pre, f = pre ++ "_dev.txt") /\
  (fnmatch f test_pat = true <-> exists pre, f = pre ++ "_test.txt").
Proof.
  rewrite train_pat_suffix, dev_pat_suffix, test_pat_suffix.
  split; [|split]; apply ends_with_app.
Qed.

Lemma pattern_exclusive (s1 s2 : slot) (f : string) :
  s1 <> s2 -> fnmatch f (pattern_of s1) = true -> fnmatch f (pattern_of s2) = false.
Proof.
  intros Hne Hm.
  destruct s1, s2; cbn [pattern_of] in *; try congruence.
  - destruct (fnmatch f dev_pat) eqn:E; [|reflexivity].
    now rewrite (dev_not_train f E) in Hm.
  - destruct (fnmatch f test_pat) eqn:E; [|reflexivity].
    now rewrite (test_not_train f E) in Hm.
  - now apply dev_not_train.
  - destruct (fnmatch f test_pat) eqn:E; [|reflexivity].
    now rewrite (test_not_dev f E) in Hm.
  - now apply test_not_train.
  - now apply test_not_dev.
Qed.

(** X2: no name matches two of the three patterns, so the order of the
    [if / elif / elif] tests never changes which slot a name goes to. *)
Theorem X2_patterns_exclusive (f : string) :
  (if fnmatch f train_pat then 1 else 0) + (if fnmatch f dev_pat then 1 else 0) +
  (if fnmatch f test_pat then 1 else 0) <= 1.
Proof.
  destruct (fnmatch f train_pat) eqn:Ht.
  - pose proof (pattern_exclusive Train Dev f ltac:(discriminate) Ht) as E1.
    pose proof (pattern_exclusive Train Test f ltac:(discriminate) Ht) as E2.
    cbn [pattern_of] in E1, E2. rewrite E1, E2. simpl. lia.
  - destruct (fnmatch f dev_pat) eqn:Hd.
    + pose proof (pattern_exclusive Dev Test f ltac:(discriminate) Hd) as E.
      cbn [pattern_of] in E. rewrite E. simpl. lia.
    + destruct (fnmatch f test_pat); simpl; lia.
Qed.

Lemma last_or_app (d : string) (p : string -> bool) (l1 l2 : list string) :
  last_or d p (l1 ++ l2) =
  match rev (filter p l2) with [] => last_or d p l1 | x :: _ => x end.
Proof.
  unfold last_or at 1 2. rewrite filter_app, rev_app_distr.
  destruct (rev (filter p l2)); reflexivity.
Qed.

Lemma last_or_app_nonempty (p : string -> bool) (l1 l2 : list string) :
  p "" = false ->
  last_or "" p (l1 ++ l2) =
  if String.eqb (last_or "" p l2) "" then last_or "" p l1 else last_or "" p l2.
Proof.
  intros Hp. rewrite last_or_app. unfold last_or.
  destruct (rev (filter p l2)) as [|x r] eqn:E; [reflexivity|].
  assert (Hx : p x = true).
  { assert (Hin : In x (rev (filter p l2))) by (rewrite E; now left).
    apply in_rev, filter_In in Hin. apply Hin. }
  destruct (String.eqb x "") eqn:Hxe; [|reflexivity].
  apply String.eqb_eq in Hxe. subst x. congruence.
Qed.

(** X3: selecting over a listing split in two parts: each slot takes its
    file from the second part when that part has a file for it, and from
    the first part otherwise. *)
Theorem X3_select_append (l1 l2 : list string) (s : slot) :
  slot_file s (select_files (l1 ++ l2)) =
  if String.eqb (slot_file s (select_files l2)) ""
  then slot_file s (select_files l1)
  else slot_file s (select_files l2).
Proof.
  rewrite !select_files_last. destruct s; cbn [slot_file];
    apply last_or_app_nonempty; reflexivity.
Qed.

Lemma last_or_filter (d : string) (p q : string -> bool) (l : list string) :
  (forall f, p f = true -> q f = true) ->
  last_or d p (filter q l) = last_or d p l.
Proof.
  intros Hpq. unfold last_or.
  assert (E : filter p (filter q l) = filter p l).
  { induction l as [|x l IH]; [reflexivity|]. simpl.
    destruct (q x) eqn:Hq, (p x) eqn:Hp; simpl; rewrite ?Hp, ?IH; try reflexivity.
    rewrite (Hpq x Hp) in Hq. discriminate. }
  now rewrite E.
Qed.

(** X4: names matching none of the three patterns have no effect on the
    selection: dropping them from the listing selects the same files. *)
Theorem X4_unmatched_ignored (l : list string) :
  select_files (filter any_pat l) = select_files l.
Proof.
  rewrite !select_files_last. unfold any_pat, takes_train, takes_dev, takes_test.
  f_equal; [f_equal|]; apply last_or_filter; intros f H.
  - now rewrite H.
  - apply andb_true_iff in H as [_ H]. now rewrite H, orb_true_r.
  - apply andb_true_iff in H as [_ H]. now rewrite H, orb_true_r.
Qed.

(** X5: two different slots never hold the same file name, unless that
    name is the empty string (both files missing). *)
Theorem X5_slots_distinct (l : list string) (s1 s2 : slot) :
  s1 <> s2 ->
  slot_file s1 (select_files l) = slot_file s2 (select_files l) ->
  slot_file s1 (select_files l) = "".
Proof.
  intros Hne Heq.
  destruct (slot_selection l s1) as [[H1 _]|(pre1 & post1 & _ & Hm1 & _)]; [exact H1|].
  destruct (slot_selection l s2) as [[H2 _]|(pre2 & post2 & _ & Hm2 & _)];
    [now rewrite Heq|].
  rewrite <- Heq in Hm2.
  rewrite (pattern_exclusive s1 s2 _ Hne Hm1) in Hm2. discriminate.
Qed.

(** The hypotheses of X5 hold for two missing files. *)
Lemma X5_witness :
  Train <> Dev /\
  slot_file Train (select_files ["README.txt"]) = slot_file Dev (select_files ["README.txt"]) /\
  slot_file Train (select_files ["README.txt"]) = "".
Proof.
  assert (Hne : Train <> Dev) by discriminate.
  assert (Heq : slot_file Train (select_files ["README.txt"]) =
                slot_file Dev (select_files ["README.txt"])) by reflexivity.
  split; [exact Hne|split; [exact Heq|]].
  exact (X5_slots_distinct ["README.txt"] Train Dev Hne Heq).
Defined.

(** The hypothesis of X6 holds for the read of the train file of the SNLI
    listing. *)
Lemma X6_witness :
  In (EReadData "data/snli_1.0/snli_1.0_train.txt" "data/snli_1.0/snli_1.0_train.txt")
     (Demo.run Demo.snli_listing) /\
  exists f, "data/snli_1.0/snli_1.0_train.txt" = join "data/snli_1.0" f /\
            (f = "" \/ In f Demo.snli_listing).
Proof.
  assert (Hin : In (EReadData "data/snli_1.0/snli_1.0_train.txt"
                      "data/snli_1.0/snli_1.0_train.txt")
                   (Demo.run Demo.snli_listing)).
  { vm_compute. repeat (first [left; reflexivity | right]). }
  split; [exact Hin|].
  exact (X6_reads_from_listing Demo.read_data Demo.build_worddict
           Demo.transform_to_indices Demo.build_embedding_matrix (fun _ => false)
           (fun _ => Demo.snli_listing) "data/snli_1.0"
           "data/embeddings/glove.840B.300d.txt" "data/preprocessed" Demo.options
           _ _ Hin).
Defined.
